(** * Netlink attributes: libnl/attr.py

    A shallow embedding of the attribute functions of [libnl/attr.py]
    (a Python port of libnl's [lib/attr.c]) and of the [nl_msg] class of
    [libnl/netlink_private/types.py], followed by the properties of the
    decode path ([nla_ok], [validate_nla], [nla_parse]) and of the encode
    path ([nla_put], [nla_put_u32], [nla_get_u32]).

    Python values are modelled as follows: integers are [Z]; a function
    that may raise returns an [outcome]; an object mutated in place (the
    index array [tb], the message [msg]) is passed in and returned.

    The decode path is given twice.  The port keeps pointer expressions
    of the C original (sizeof of the dereferenced [nla],
    [POINTER(policy[type_]).contents], [byref(nla_data(nla))[i]]) and
    uses names it does not bind ([NLA_HDRLEN], [nla_attr_minlen],
    [nla_for_each_attr]).  Section [attr] reads these as the C
    expressions they transliterate, with the missing names as
    parameters; module [shipped] follows the Python text as the
    interpreter runs it, where they raise.  The C reading returns
    whatever the module as run returns ([shipped_validate_nla_returns],
    [shipped_nla_parse_loop_returns]), so a statement about every result
    of the C reading covers the results of the code. *)

From Stdlib Require Import ZArith Lia Ascii.
From stdpp Require Import base tactics option list.

Local Open Scope Z_scope.

(** ** Python runtime: exceptions, results, sequence indexing *)

Inductive exn :=
| BUG              (* libnl.netlink_private.netlink.BUG *)
| AttributeError
| AssertionError
| IndexError
| TypeError
| NameError.

Inductive outcome (A : Type) :=
| Return (a : A)
| Raise (e : exn).
Arguments Return {A} a.
Arguments Raise {A} e.

#[global] Instance outcome_ret : MRet outcome := @Return.
#[global] Instance outcome_bind : MBind outcome := λ A B f m,
  match m with
  | Return a => f a
  | Raise e => Raise e
  end.

(** [l[i]] on a Python sequence: a negative index counts from the end,
    anything outside the sequence raises IndexError. *)
Definition py_index {A} (l : list A) (i : Z) : Z :=
  if i <? 0 then i + Z.of_nat (length l) else i.

Definition py_getitem {A} (l : list A) (i : Z) : outcome A :=
  let j := py_index l i in
  if (0 <=? j) && (j <? Z.of_nat (length l)) then
    match l !! Z.to_nat j with
    | Some x => Return x
    | None => Raise IndexError
    end
  else Raise IndexError.

(** [l[i] = x] on a Python sequence. *)
Definition py_setitem {A} (l : list A) (i : Z) (x : A) : outcome (list A) :=
  let j := py_index l i in
  if (0 <=? j) && (j <? Z.of_nat (length l)) then Return (<[Z.to_nat j := x]> l)
  else Raise IndexError.

(** ** ctypes integers

    ctypes does no overflow checking: the constructor keeps the low bits
    of its argument. *)
Definition c_uint16 (v : Z) : Z := v mod 2 ^ 16.
Definition c_uint32 (v : Z) : Z := v mod 2 ^ 32.
Definition c_int (v : Z) : Z := (v + 2 ^ 31) mod 2 ^ 32 - 2 ^ 31.

(** The objects carried as attribute payload: the ctypes integers, a
    character buffer, or [None] for an attribute without payload. *)
Inductive pyobj :=
| PyNone
| C_uint8 (value : Z)
| C_uint16 (value : Z)
| C_uint32 (value : Z)
| C_uint64 (value : Z)
| C_chars (raw : list ascii).

Definition sizeof (o : pyobj) : Z :=
  match o with
  | PyNone => 0
  | C_uint8 _ => 1
  | C_uint16 _ => 2
  | C_uint32 _ => 4
  | C_uint64 _ => 8
  | C_chars raw => Z.of_nat (length raw)
  end.

(** The [value] argument of [nla_put_u32]: "int() or c_uint32()". *)
Inductive u32_arg :=
| PyInt (n : Z)
| PyCUint32 (value : Z).

(** ** Attribute kinds (attr.py) *)

Definition NLA_UNSPEC : Z := 0.
Definition NLA_U8 : Z := 1.
Definition NLA_U16 : Z := 2.
Definition NLA_U32 : Z := 3.
Definition NLA_U64 : Z := 4.
Definition NLA_STRING : Z := 5.
Definition NLA_FLAG : Z := 6.
Definition NLA_MSECS : Z := 7.
Definition NLA_NESTED : Z := 8.
Definition NLA_TYPE_MAX : Z := NLA_NESTED.

(** The natural minimum of a kind in the words of the specification:
    "0 for unspecified/flag, else the kind's fixed byte width, 1 for
    string".  [named_kind] holds of the kinds these words cover. *)
Definition natural_minlen (kind : Z) : Z :=
  if kind =? NLA_UNSPEC then 0
  else if kind =? NLA_FLAG then 0
  else if kind =? NLA_STRING then 1
  else if kind =? NLA_U8 then 1
  else if kind =? NLA_U16 then 2
  else if kind =? NLA_U32 then 4
  else if kind =? NLA_U64 then 8
  else 0.

Definition named_kinds : list Z :=
  [NLA_UNSPEC; NLA_U8; NLA_U16; NLA_U32; NLA_U64; NLA_STRING; NLA_FLAG].

Definition named_kind (kind : Z) : bool :=
  bool_decide (kind ∈ named_kinds).

(** A table lookup yields the length [n]. *)
Definition yields (o : outcome Z) (n : Z) : bool :=
  match o with
  | Return m => m =? n
  | Raise _ => false
  end.

(** ** Declarations used by attr.py and defined elsewhere

    The constants of [libnl.errno] and [libnl.linux_private.netlink] and
    the table [nla_attr_minlen] are parameters of the development;
    [linux_consts] below gives them the values of libnl and of the Linux
    headers.

    Modelled from the spec: the entries of [nla_attr_minlen] for the
    kinds the specification names are the natural minima,
    [nla_attr_minlen_named]; the error codes are positive numbers. *)
Class netlink_consts := {
  sizeof_nlattr : Z;        (* sizeof(nlattr), the attribute header *)
  NLA_HDRLEN : Z;
  NLA_TYPE_MASK : Z;
  NLE_INVAL : Z;
  NLE_RANGE : Z;
  nla_attr_minlen : Z -> outcome Z;
  NLE_INVAL_pos : 0 < NLE_INVAL;
  NLE_RANGE_pos : 0 < NLE_RANGE;
  nla_attr_minlen_named :
    forallb (λ kind, yields (nla_attr_minlen kind) (natural_minlen kind))
      named_kinds = true;
}.

Definition NLA_ALIGNTO : Z := 4.

(** Modelled from the spec: the NLA_ALIGN macro, "align_up(length, 4)",
    written as in linux/netlink.h:
    [(len + NLA_ALIGNTO - 1) & ~(NLA_ALIGNTO - 1)]. *)
Definition NLA_ALIGN (len : Z) : Z :=
  Z.land (len + NLA_ALIGNTO - 1) (Z.lnot (NLA_ALIGNTO - 1)).

Definition NLA_F_NESTED : Z := Z.shiftl 1 15.
Definition NLA_F_NET_BYTEORDER : Z := Z.shiftl 1 14.

(** The table of lib/attr.c: an array of NLA_TYPE_MAX + 1 entries, zero
    where no width is given. *)
Definition linux_attr_minlen (kind : Z) : outcome Z :=
  py_getitem [0; 1; 2; 4; 8; 1; 0; 0; 0] kind.

Definition linux_consts : netlink_consts := {|
  sizeof_nlattr := 4;
  NLA_HDRLEN := NLA_ALIGN 4;
  NLA_TYPE_MASK := Z.lnot (Z.lor NLA_F_NESTED NLA_F_NET_BYTEORDER);
  NLE_INVAL := 7;
  NLE_RANGE := 8;
  nla_attr_minlen := linux_attr_minlen;
  NLE_INVAL_pos := eq_refl;
  NLE_RANGE_pos := eq_refl;
  nla_attr_minlen_named := eq_refl;
|}.

(** Modelled from the spec: the nlattr class of
    libnl.linux_private.netlink, "a header of two fixed-width unsigned
    fields, length and type", followed by the payload.  [nla_type] holds
    the value of the c_uint16 object read as [nla.nla_type.value]. *)
Module nlattr.
Record t := mk {
  nla_len : Z;
  nla_type : N;
  payload : pyobj;
}.
End nlattr.

(** Modelled from the spec: one entry of the policy table, "an expected
    kind, an optional explicit minimum length, and an optional explicit
    maximum length"; zero means that no explicit length is given. *)
Module nla_policy.
Record t := mk {
  type : Z;
  minlen : Z;
  maxlen : Z;
}.
End nla_policy.

(** The classes of libnl/netlink_private/types.py used by the attribute
    functions.  [sockaddr_nl], [ucred] and [nlmsghdr] are classes of
    other modules; they are recorded with the fields of the
    corresponding C structs, [nlmsghdr] with the attribute list [attrs]
    that [nla_put] appends to. *)
Record sockaddr_nl := {
  nl_family : Z;
  nl_pid : Z;
  nl_groups : Z;
}.

Record ucred := {
  pid : Z;
  uid : Z;
  gid : Z;
}.

Record nlmsghdr := {
  nlmsg_type : Z;
  nlmsg_flags : Z;
  nlmsg_seq : Z;
  nlmsg_pid : Z;
  attrs : list nlattr.t;
}.

Record nl_msg := {
  nm_protocol : Z;
  nm_flags : Z;
  nm_src : sockaddr_nl;
  nm_dst : sockaddr_nl;
  nm_creds : option ucred;
  nm_nlh : option nlmsghdr;
  nm_size : Z;
  nm_refcnt : Z;
}.

(** [nl_msg.__init__] *)
Definition nl_msg_init : nl_msg := {|
  nm_protocol := 0;
  nm_flags := 0;
  nm_src := {| nl_family := 0; nl_pid := 0; nl_groups := 0 |};
  nm_dst := {| nl_family := 0; nl_pid := 0; nl_groups := 0 |};
  nm_creds := None;
  nm_nlh := None;
  nm_size := 0;
  nm_refcnt := 1;
|}.

(** ** attr.py *)

Section attr.
Context {K : netlink_consts}.

(** Modelled from the spec: the constructor
    [nlattr(nla_type=attrtype, payload=data)], "a header with
    length = header_size + len(payload_bytes) and type = type". *)
Definition new_nlattr (attrtype : Z) (data : pyobj) : nlattr.t :=
  nlattr.mk (NLA_HDRLEN + sizeof data) (Z.to_N (c_uint16 attrtype)) data.

Definition nla_type (nla : nlattr.t) : Z :=
  Z.land (Z.of_N (nlattr.nla_type nla)) NLA_TYPE_MASK.

Definition nla_data (nla : nlattr.t) : pyobj :=
  nlattr.payload nla.

Definition nla_len (nla : nlattr.t) : Z :=
  nlattr.nla_len nla - NLA_HDRLEN.

Definition nla_ok (nla : nlattr.t) (remaining : Z) : bool :=
  (remaining >=? sizeof_nlattr)
  && ((sizeof_nlattr <=? nlattr.nla_len nla)
      && (nlattr.nla_len nla <=? remaining)).

(** A position in an attribute stream is the list of the records laid
    out from that position on; the record under the cursor is its
    head.  [nla_next] returns the position behind the current record
    and the updated [remaining] counter, a c_int. *)
Definition nla_next (pos : list nlattr.t) (remaining : Z)
  : list nlattr.t * Z :=
  match pos with
  | nla :: next =>
      let totlen := NLA_ALIGN (nlattr.nla_len nla) in
      (next, c_int (remaining - totlen))
  | [] => ([], remaining)
  end.

(** The payload seen as a character buffer, [data[i]]. *)
Definition data_getitem (data : pyobj) (i : Z) : outcome ascii :=
  match data with
  | C_chars raw => py_getitem raw i
  | _ => Raise TypeError
  end.

Definition validate_nla (nla : nlattr.t) (maxtype : Z)
    (policy : list nla_policy.t) : outcome Z :=
  let minlen := 0 in
  let type_ := nla_type nla in
  if (type_ <? 0) || (type_ >? maxtype) then Return 0 else
  pt ← py_getitem policy type_;
  if nla_policy.type pt >? NLA_TYPE_MAX then Raise BUG else
  minlen ← (if negb (nla_policy.minlen pt =? 0)
            then Return (nla_policy.minlen pt)
            else if negb (nla_policy.type pt =? NLA_UNSPEC)
                 then nla_attr_minlen (nla_policy.type pt)
                 else Return minlen);
  if nla_len nla <? minlen then Return (- NLE_RANGE) else
  if negb (nla_policy.maxlen pt =? 0) && (nla_len nla >? nla_policy.maxlen pt)
  then Return (- NLE_RANGE) else
  if nla_policy.type pt =? NLA_STRING then
    let data := nla_data nla in
    c ← data_getitem data (nla_len nla - 1);
    if negb (Ascii.eqb c zero) then Return (- NLE_INVAL) else Return 0
  else Return 0.

(** Modelled from the spec: the nla_for_each_attr macro of
    netlink/attr.h, "check is_safe_to_read; if false, the stream ends;
    advance and repeat":
    [for (pos = head, rem = len; nla_ok(pos, rem); pos = nla_next(pos, &rem))].
    The result is the sequence of records handed to the loop body, in
    order.  A position with no record left ends the stream. *)
Fixpoint nla_for_each_attr (pos : list nlattr.t) (rem : Z) : list nlattr.t :=
  match pos with
  | [] => []
  | nla :: next =>
      if nla_ok nla rem
      then nla :: nla_for_each_attr next (snd (nla_next pos rem))
      else []
  end.

(** The index array [tb]: one slot per attribute type, [None] for a
    zeroed slot.  [memset(tb, 0, sizeof(nlattr) * n)] clears the first
    [n] slots.  [tb[type_] = nla] on this array of structures stores the
    record under the cursor, not a reference to the loop variable. *)
Definition memset (tb : list (option nlattr.t)) (n : Z)
  : list (option nlattr.t) :=
  replicate (length (take (Z.to_nat n) tb)) None ++ drop (Z.to_nat n) tb.

(** [if policy:] is false for [None] and for an empty table. *)
Definition py_bool (policy : option (list nla_policy.t)) : bool :=
  match policy with
  | Some (_ :: _) => true
  | _ => false
  end.

(** The body of the while loop of [nla_parse], run over the records
    produced by [nla_for_each_attr].  The result pairs the index array
    as the loop leaves it with what [nla_parse] returns or raises. *)
Fixpoint nla_parse_loop (tb : list (option nlattr.t)) (maxtype : Z)
    (policy : option (list nla_policy.t)) (stream : list nlattr.t)
  : list (option nlattr.t) * outcome Z :=
  match stream with
  | [] => (tb, Return 0)
  | nla :: stream' =>
      let type_ := nla_type nla in
      if type_ >? maxtype then nla_parse_loop tb maxtype policy stream'
      else
        let store :=
          match py_setitem tb type_ (Some nla) with
          | Return tb' => nla_parse_loop tb' maxtype policy stream'
          | Raise e => (tb, Raise e)
          end in
        if py_bool policy then
          match validate_nla nla maxtype (default [] policy) with
          | Return err => if err <? 0 then (tb, Return err) else store
          | Raise e => (tb, Raise e)
          end
        else store
  end.

Definition nla_parse (tb : list (option nlattr.t)) (maxtype : Z)
    (head : list nlattr.t) (len_ : Z) (policy : option (list nla_policy.t))
  : list (option nlattr.t) * outcome Z :=
  let tb := memset tb (maxtype + 1) in
  nla_parse_loop tb maxtype policy (nla_for_each_attr head (c_int len_)).

Definition nla_put (msg : nl_msg) (attrtype : Z) (data : pyobj)
  : nl_msg * outcome Z :=
  let nla := new_nlattr attrtype data in
  match nm_nlh msg with
  | None => (msg, Raise AttributeError)
  | Some nlh =>
      let nlh' := {| nlmsg_type := nlmsg_type nlh;
                     nlmsg_flags := nlmsg_flags nlh;
                     nlmsg_seq := nlmsg_seq nlh;
                     nlmsg_pid := nlmsg_pid nlh;
                     attrs := attrs nlh ++ [nla] |} in
      ({| nm_protocol := nm_protocol msg;
          nm_flags := nm_flags msg;
          nm_src := nm_src msg;
          nm_dst := nm_dst msg;
          nm_creds := nm_creds msg;
          nm_nlh := Some nlh';
          nm_size := nm_size msg;
          nm_refcnt := nm_refcnt msg |}, Return 0)
  end.

Definition nla_put_u32 (msg : nl_msg) (attrtype : Z) (value : u32_arg)
  : nl_msg * outcome Z :=
  nla_put msg attrtype
    match value with
    | PyCUint32 v => C_uint32 v
    | PyInt n => C_uint32 (c_uint32 n)
    end.

Definition nla_get_u32 (nla : nlattr.t) : outcome Z :=
  match nlattr.payload nla with
  | C_uint32 value => Return value
  | _ => Raise AssertionError
  end.

(** The attribute list of a message, empty while [nm_nlh] is unset. *)
Definition msg_attrs (msg : nl_msg) : list nlattr.t :=
  match nm_nlh msg with
  | Some nlh => attrs nlh
  | None => []
  end.

(** ** Reference definitions *)

(** What [nla_put] leaves alone: every field of the message and of its
    header other than the attribute list. *)
Definition envelope_unchanged (msg msg' : nl_msg) : Prop :=
  nm_protocol msg' = nm_protocol msg
  /\ nm_flags msg' = nm_flags msg
  /\ nm_src msg' = nm_src msg
  /\ nm_dst msg' = nm_dst msg
  /\ nm_creds msg' = nm_creds msg
  /\ nm_size msg' = nm_size msg
  /\ nm_refcnt msg' = nm_refcnt msg
  /\ match nm_nlh msg, nm_nlh msg' with
     | Some nlh, Some nlh' =>
         nlmsg_type nlh' = nlmsg_type nlh
         /\ nlmsg_flags nlh' = nlmsg_flags nlh
         /\ nlmsg_seq nlh' = nlmsg_seq nlh
         /\ nlmsg_pid nlh' = nlmsg_pid nlh
     | None, None => True
     | _, _ => False
     end.

(** The bytes a run of records spans in the stream: every record but
    the last counts with its padding, [NLA_ALIGN] of the declared length,
    the last one with its declared length. *)
Fixpoint stream_span (stream : list nlattr.t) : Z :=
  match stream with
  | [] => 0
  | nla :: rest =>
      match rest with
      | [] => nlattr.nla_len nla
      | _ :: _ => NLA_ALIGN (nlattr.nla_len nla) + stream_span rest
      end
  end.

(** ** Sample data

    A policy table for the types 0 to 5, some records and a message
    whose header is allocated, on which the statements below are run. *)
Definition sample_policy : list nla_policy.t :=
  [ nla_policy.mk NLA_UNSPEC 0 0;
    nla_policy.mk NLA_U32 0 0;
    nla_policy.mk NLA_U16 0 0;
    nla_policy.mk NLA_U32 0 0;
    nla_policy.mk NLA_STRING 0 0;
    nla_policy.mk NLA_FLAG 0 0 ].

Definition empty_tb : list (option nlattr.t) := replicate 6 None.

Definition rec_u32_a : nlattr.t := nlattr.mk 8 1 (C_uint32 7).
Definition rec_u32_b : nlattr.t := nlattr.mk 8 1 (C_uint32 9).
Definition rec_unspec : nlattr.t := nlattr.mk 8 0 (C_uint32 5).
Definition rec_seven : nlattr.t := nlattr.mk 8 3 (C_uint32 7).
Definition rec_short : nlattr.t := nlattr.mk 6 3 (C_uint16 1).
Definition rec_high : nlattr.t := nlattr.mk 5 9 (C_uint8 1).
Definition rec_zero_len : nlattr.t := nlattr.mk 0 0 PyNone.
Definition rec_str_nul : nlattr.t :=
  nlattr.mk 7 4 (C_chars ["a"; "b"; zero]%char).
Definition rec_str_open : nlattr.t :=
  nlattr.mk 7 4 (C_chars ["a"; "b"; "c"]%char).

Definition sample_msg : nl_msg := {|
  nm_protocol := 0;
  nm_flags := 0;
  nm_src := {| nl_family := 0; nl_pid := 0; nl_groups := 0 |};
  nm_dst := {| nl_family := 0; nl_pid := 0; nl_groups := 0 |};
  nm_creds := None;
  nm_nlh := Some {| nlmsg_type := 16; nlmsg_flags := 5; nlmsg_seq := 1;
                    nlmsg_pid := 0; attrs := [rec_u32_a] |};
  nm_size := 0;
  nm_refcnt := 1;
|}.

(** A policy table of two entries, the second of a kind beyond
    NLA_TYPE_MAX, and an index array of eight slots with entries left
    from earlier use. *)
Definition bad_kind_policy : list nla_policy.t :=
  [ nla_policy.mk NLA_UNSPEC 0 0; nla_policy.mk 9 0 0 ].

Definition stale_tb : list (option nlattr.t) :=
  [ Some rec_seven; None; Some rec_short; None; None; None;
    None; Some rec_high ].

End attr.

(** ** attr.py as the interpreter runs it

    The definitions of the section above read the decode path as the C
    original it is ported from.  The module [shipped] follows the Python
    text of [nla_len], [nla_ok], [validate_nla] and [nla_parse] as it
    stands: a name that the module neither imports nor defines raises
    NameError when it is evaluated, and a call that Python or ctypes
    refuses raises TypeError.  [nla_type], [nla_data], [nla_next],
    [nla_put], [nla_put_u32] and [nla_get_u32] read the same either way. *)
Module shipped.
Section functions.
Context {K : netlink_consts}.

(** The star of a call, [f( *x )], unpacks an iterable into the
    arguments; an nlattr is not iterable. *)
Definition unpack (nla : nlattr.t) : outcome (list pyobj) :=
  Raise TypeError.

(** [sizeof] takes one ctypes object. *)
Definition sizeof_args (args : list pyobj) : outcome Z :=
  match args with
  | [o] => Return (sizeof o)
  | _ => Raise TypeError
  end.

(** [NLA_HDRLEN] and [nla_attr_minlen] are evaluated by attr.py and
    bound by none of its imports (lines 11 to 15) and definitions. *)
Definition NLA_HDRLEN : outcome Z := Raise NameError.

Definition nla_attr_minlen (kind : Z) : outcome Z := Raise NameError.

(** [POINTER] takes a ctypes type; an entry of the policy table is an
    instance, which it refuses. *)
Definition POINTER (entry : nla_policy.t) : outcome nla_policy.t :=
  Raise TypeError.

(** [byref(...)[i]]: the object [byref] returns has no items. *)
Definition byref_getitem (data : pyobj) (i : Z) : outcome ascii :=
  Raise TypeError.

Definition nla_len (nla : nlattr.t) : outcome Z :=
  hdrlen ← NLA_HDRLEN;
  Return (nlattr.nla_len nla - hdrlen).

Definition nla_ok (nla : nlattr.t) (remaining : Z) : outcome bool :=
  size ← (unpack nla ≫= sizeof_args);
  if remaining >=? size then
    size ← (unpack nla ≫= sizeof_args);
    Return ((size <=? nlattr.nla_len nla)
            && (nlattr.nla_len nla <=? remaining))
  else Return false.

Definition validate_nla (nla : nlattr.t) (maxtype : Z)
    (policy : list nla_policy.t) : outcome Z :=
  let minlen := 0 in
  let type_ := nla_type nla in
  if (type_ <? 0) || (type_ >? maxtype) then Return 0 else
  entry ← py_getitem policy type_;
  pt ← POINTER entry;
  if nla_policy.type pt >? NLA_TYPE_MAX then Raise BUG else
  minlen ← (if negb (nla_policy.minlen pt =? 0)
            then Return (nla_policy.minlen pt)
            else if negb (nla_policy.type pt =? NLA_UNSPEC)
                 then nla_attr_minlen (nla_policy.type pt)
                 else Return minlen);
  len ← nla_len nla;
  if len <? minlen then Return (- NLE_RANGE) else
  over ← (if negb (nla_policy.maxlen pt =? 0)
          then len ← nla_len nla; Return (len >? nla_policy.maxlen pt)
          else Return false);
  if over : bool then Return (- NLE_RANGE) else
  if nla_policy.type pt =? NLA_STRING then
    let data := nla_data nla in
    len ← nla_len nla;
    c ← byref_getitem data (len - 1);
    if negb (Ascii.eqb c zero) then Return (- NLE_INVAL) else Return 0
  else Return 0.

(** What the name [nla_for_each_attr] does when it is called as the
    condition of the while loop: it hands a run of records to the loop
    body and then ends the loop, by a false result ([None]) or by an
    exception. *)
Definition iteration : Type := list nlattr.t * option exn.

(** The loop of [nla_parse] over the records of an iteration. *)
Fixpoint nla_parse_loop (tb : list (option nlattr.t)) (maxtype : Z)
    (policy : option (list nla_policy.t)) (records : list nlattr.t)
    (finish : option exn) : list (option nlattr.t) * outcome Z :=
  match records with
  | [] =>
      match finish with
      | None => (tb, Return 0)
      | Some e => (tb, Raise e)
      end
  | nla :: records' =>
      let type_ := nla_type nla in
      if type_ >? maxtype
      then nla_parse_loop tb maxtype policy records' finish
      else
        let store :=
          match py_setitem tb type_ (Some nla) with
          | Return tb' => nla_parse_loop tb' maxtype policy records' finish
          | Raise e => (tb, Raise e)
          end in
        if py_bool policy then
          match validate_nla nla maxtype (default [] policy) with
          | Return err => if err <? 0 then (tb, Return err) else store
          | Raise e => (tb, Raise e)
          end
        else store
  end.

(** [nla_parse] under a binding of the name [nla_for_each_attr]:
    attr.py itself leaves the name unbound ([None]), so that the call in
    the loop header raises NameError, after the memset. *)
Definition nla_parse
    (nla_for_each_attr : option (list nlattr.t -> Z -> iteration))
    (tb : list (option nlattr.t)) (maxtype : Z)
    (head : list nlattr.t) (len_ : Z) (policy : option (list nla_policy.t))
  : list (option nlattr.t) * outcome Z :=
  let tb := memset tb (maxtype + 1) in
  match nla_for_each_attr with
  | None => (tb, Raise NameError)
  | Some iterate =>
      nla_parse_loop tb maxtype policy
        (fst (iterate head len_)) (snd (iterate head len_))
  end.

End functions.
End shipped.



(** ** Properties *)

Section properties.
Context {K : netlink_consts}.

(** *** Sequence indexing *)

Lemma py_getitem_lookup {A} (l : list A) (i : Z) (x : A) :
  0 <= i -> l !! Z.to_nat i = Some x -> py_getitem l i = Return x.
Proof.
  intros Hi Hx. pose proof (lookup_lt_Some _ _ _ Hx) as Hlt.
  unfold py_getitem, py_index.
  destruct (Z.ltb_spec i 0); [lia|].
  destruct (Z.leb_spec 0 i); [|lia].
  destruct (Z.ltb_spec i (Z.of_nat (length l))); [|lia].
  simpl. by rewrite Hx.
Qed.

Lemma py_setitem_insert {A} (l : list A) (i : Z) (x : A) :
  0 <= i < Z.of_nat (length l) ->
  py_setitem l i x = Return (<[Z.to_nat i := x]> l).
Proof.
  intros Hi. unfold py_setitem, py_index.
  destruct (Z.ltb_spec i 0); [lia|].
  destruct (Z.leb_spec 0 i); [|lia].
  destruct (Z.ltb_spec i (Z.of_nat (length l))); [|lia].
  done.
Qed.

(** *** Header accessors *)

Lemma nla_type_nonneg (nla : nlattr.t) : 0 <= nla_type nla.
Proof. unfold nla_type. apply Z.land_nonneg. left. lia. Qed.

Lemma nla_ok_true (nla : nlattr.t) (remaining : Z) :
  nla_ok nla remaining = true <->
  sizeof_nlattr <= remaining /\
  sizeof_nlattr <= nlattr.nla_len nla <= remaining.
Proof.
  unfold nla_ok. rewrite !andb_true_iff, Z.geb_le, !Z.leb_le. tauto.
Qed.

(** *** The index array *)

Lemma memset_length (tb : list (option nlattr.t)) (n : Z) :
  length (memset tb n) = length tb.
Proof.
  unfold memset.
  rewrite length_app, length_replicate, length_take, length_drop. lia.
Qed.

Lemma memset_lookup (tb : list (option nlattr.t)) (n t : Z) :
  0 <= t < n -> t < Z.of_nat (length tb) ->
  memset tb n !! Z.to_nat t = Some None.
Proof.
  intros Ht Hlen. unfold memset.
  rewrite lookup_app_l by (rewrite length_replicate, length_take; lia).
  apply lookup_replicate_2. rewrite length_take. lia.
Qed.

(** *** The parse loop *)

(** The iterator hands out an initial segment of the stream, each
    record accepted by [nla_ok]. *)
Lemma nla_for_each_attr_prefix (pos : list nlattr.t) (rem : Z) :
  nla_for_each_attr pos rem `prefix_of` pos.
Proof.
  revert rem. induction pos as [|nla next IH]; intros rem; [done|].
  simpl. destruct (nla_ok nla rem).
  - by apply prefix_cons.
  - apply prefix_nil.
Qed.

Lemma nla_for_each_attr_head (pos next : list nlattr.t) (nla : nlattr.t)
    (rem : Z) :
  nla_for_each_attr pos rem = nla :: next -> nla_ok nla rem = true.
Proof.
  destruct pos as [|nla' pos]; [done|]. simpl.
  destruct (nla_ok nla' rem) eqn:Hok; [|done].
  intros Heq. by simplify_eq.
Qed.

(** *** Building attributes *)

Lemma nla_put_header (msg : nl_msg) (nlh : nlmsghdr) (attrtype : Z)
    (data : pyobj) :
  nm_nlh msg = Some nlh ->
  exists msg' : nl_msg,
    nla_put msg attrtype data = (msg', Return 0)
    /\ msg_attrs msg' = msg_attrs msg ++ [new_nlattr attrtype data]
    /\ envelope_unchanged msg msg'.
Proof.
  intros Hnlh. unfold nla_put, msg_attrs, envelope_unchanged.
  rewrite Hnlh. eexists. split; [done|]. simpl. done.
Qed.

(** C9 (amended). On a message whose header [nm_nlh] is set, [nla_put]
    returns 0 for every attribute type and every payload, whatever its
    size; it appends exactly one attribute to the attribute list, keeps
    the attributes appended before, and changes nothing else. *)
Theorem nla_put_appends (msg : nl_msg) (nlh : nlmsghdr) (attrtype : Z)
    (data : pyobj) :
  nm_nlh msg = Some nlh ->
  exists msg' : nl_msg,
    nla_put msg attrtype data = (msg', Return 0)
    /\ msg_attrs msg' = msg_attrs msg ++ [new_nlattr attrtype data]
    /\ length (msg_attrs msg') = S (length (msg_attrs msg))
    /\ take (length (msg_attrs msg)) (msg_attrs msg') = msg_attrs msg
    /\ envelope_unchanged msg msg'.
Proof.
  intros Hnlh.
  destruct (nla_put_header msg nlh attrtype data Hnlh)
    as (msg' & Hput & Hattrs & Hrest).
  exists msg'. rewrite Hattrs.
  split; [done|]. split; [done|]. split; [|split; [|done]].
  - rewrite length_app. simpl. lia.
  - by rewrite take_app_length.
Qed.

(** C3. The attribute appended by [nla_put] carries the payload it was
    given, whatever its kind; the attribute appended by [nla_put_u32] for
    an unsigned 32 bit value [v], given as an integer or as a c_uint32,
    is read back as [v] by [nla_get_u32]. *)
Theorem nla_put_get_roundtrip (msg : nl_msg) (nlh : nlmsghdr) (attrtype : Z)
    (data : pyobj) (v : Z) :
  nm_nlh msg = Some nlh ->
  0 <= v < 2 ^ 32 ->
  (exists (msg' : nl_msg) (nla : nlattr.t),
     nla_put msg attrtype data = (msg', Return 0)
     /\ last (msg_attrs msg') = Some nla
     /\ nla_data nla = data)
  /\ (exists (msg' : nl_msg) (nla : nlattr.t),
       nla_put_u32 msg attrtype (PyInt v) = (msg', Return 0)
       /\ last (msg_attrs msg') = Some nla
       /\ nla_get_u32 nla = Return v)
  /\ (exists (msg' : nl_msg) (nla : nlattr.t),
       nla_put_u32 msg attrtype (PyCUint32 v) = (msg', Return 0)
       /\ last (msg_attrs msg') = Some nla
       /\ nla_get_u32 nla = Return v).
Proof.
  intros Hnlh Hv. unfold nla_put_u32. split; [|split].
  - destruct (nla_put_header msg nlh attrtype data Hnlh)
      as (msg' & Hput & Hattrs & _).
    exists msg', (new_nlattr attrtype data).
    by rewrite Hattrs, last_snoc.
  - destruct (nla_put_header msg nlh attrtype (C_uint32 (c_uint32 v)) Hnlh)
      as (msg' & Hput & Hattrs & _).
    exists msg', (new_nlattr attrtype (C_uint32 (c_uint32 v))).
    rewrite Hattrs, last_snoc. split; [done|]. split; [done|].
    unfold nla_get_u32, c_uint32. simpl. by rewrite Z.mod_small.
  - destruct (nla_put_header msg nlh attrtype (C_uint32 v) Hnlh)
      as (msg' & Hput & Hattrs & _).
    exists msg', (new_nlattr attrtype (C_uint32 v)).
    by rewrite Hattrs, last_snoc.
Qed.

(** C10. For every integer [v], negative or beyond 32 bits included,
    [nla_put_u32] stores [v] reduced to an unsigned 32 bit value:
    [nla_get_u32] on the appended attribute returns [v mod 2^32]. *)
Theorem nla_put_u32_truncates (msg : nl_msg) (nlh : nlmsghdr) (attrtype : Z)
    (v : Z) :
  nm_nlh msg = Some nlh ->
  exists (msg' : nl_msg) (nla : nlattr.t),
    nla_put_u32 msg attrtype (PyInt v) = (msg', Return 0)
    /\ last (msg_attrs msg') = Some nla
    /\ nla_get_u32 nla = Return (v mod 2 ^ 32)
    /\ 0 <= v mod 2 ^ 32 < 2 ^ 32.
Proof.
  intros Hnlh. unfold nla_put_u32.
  destruct (nla_put_header msg nlh attrtype (C_uint32 (c_uint32 v)) Hnlh)
    as (msg' & Hput & Hattrs & _).
  exists msg', (new_nlattr attrtype (C_uint32 (c_uint32 v))).
  rewrite Hattrs, last_snoc.
  split; [done|]. split; [done|]. split; [done|].
  apply Z.mod_pos_bound. lia.
Qed.

(** ** Further properties of the iteration *)

Lemma c_int_small (v : Z) : - 2 ^ 31 <= v < 2 ^ 31 -> c_int v = v.
Proof. intros Hv. unfold c_int. rewrite Z.mod_small by lia. lia. Qed.

Lemma c_int_range (v : Z) : - 2 ^ 31 <= c_int v < 2 ^ 31.
Proof.
  unfold c_int. pose proof (Z.mod_pos_bound (v + 2 ^ 31) (2 ^ 32)). lia.
Qed.

Lemma NLA_ALIGN_bounds (len : Z) : len <= NLA_ALIGN len < len + 4.
Proof.
  unfold NLA_ALIGN, NLA_ALIGNTO. rewrite <- Z.ldiff_land.
  change (4 - 1) with (Z.ones 2).
  rewrite Z.ldiff_ones_r, Z.shiftr_div_pow2, Z.shiftl_mul_pow2 by lia.
  change (2 ^ 2) with 4.
  pose proof (Z.div_mod (len + 4 - 1) 4).
  pose proof (Z.mod_pos_bound (len + 4 - 1) 4). lia.
Qed.

(** X1. On a record accepted by [nla_ok], [nla_next] moves behind the
    record and takes the padded length off the counter: the counter
    strictly decreases and ends at -3 or above. *)
Theorem nla_next_progress (nla : nlattr.t) (next : list nlattr.t)
    (remaining : Z) :
  0 < sizeof_nlattr ->
  remaining < 2 ^ 31 ->
  nla_ok nla remaining = true ->
  nla_next (nla :: next) remaining =
    (next, remaining - NLA_ALIGN (nlattr.nla_len nla))
  /\ -3 <= remaining - NLA_ALIGN (nlattr.nla_len nla) < remaining.
Proof.
  intros Hhdr Hrem Hok. apply nla_ok_true in Hok.
  pose proof (NLA_ALIGN_bounds (nlattr.nla_len nla)) as Halign.
  split; [|lia]. unfold nla_next. by rewrite c_int_small by lia.
Qed.

Lemma stream_span_cons (nla y : nlattr.t) (rest : list nlattr.t) :
  stream_span (nla :: y :: rest) =
  NLA_ALIGN (nlattr.nla_len nla) + stream_span (y :: rest).
Proof. done. Qed.

Lemma nla_for_each_attr_span (pos : list nlattr.t) (rem : Z) :
  0 <= sizeof_nlattr ->
  - 2 ^ 31 <= rem < 2 ^ 31 ->
  stream_span (nla_for_each_attr pos rem) <= Z.max 0 rem
  /\ Forall (λ nla, sizeof_nlattr <= nlattr.nla_len nla)
       (nla_for_each_attr pos rem).
Proof.
  intros Hhdr. revert rem.
  induction pos as [|nla next IH]; intros rem Hrem.
  { simpl. split; [lia|constructor]. }
  cbn [nla_for_each_attr].
  destruct (nla_ok nla rem) eqn:Hok; [|simpl; split; [lia|constructor]].
  apply nla_ok_true in Hok.
  pose proof (NLA_ALIGN_bounds (nlattr.nla_len nla)) as Halign.
  cbn [nla_next snd]. rewrite c_int_small by lia.
  destruct (IH (rem - NLA_ALIGN (nlattr.nla_len nla))) as [Hspan Hall];
    [lia|].
  split; [|constructor; [lia|done]].
  destruct (nla_for_each_attr next (rem - NLA_ALIGN (nlattr.nla_len nla)))
    as [|y rest] eqn:Hrest.
  - simpl. lia.
  - rewrite stream_span_cons.
    apply nla_for_each_attr_head, nla_ok_true in Hrest. lia.
Qed.

(** X2. The records [nla_parse] iterates over lie within the stream:
    with their padding they span at most the stream length [len_] (as
    the c_int counter holds it), and each declares at least a header. *)
Theorem nla_for_each_attr_within (head : list nlattr.t) (len_ : Z) :
  0 <= sizeof_nlattr ->
  stream_span (nla_for_each_attr head (c_int len_)) <= Z.max 0 (c_int len_)
  /\ Forall (λ nla, sizeof_nlattr <= nlattr.nla_len nla)
       (nla_for_each_attr head (c_int len_)).
Proof.
  intros Hhdr. apply nla_for_each_attr_span; [done|apply c_int_range].
Qed.

(** ** Further properties of the parse *)

Lemma nla_parse_loop_length (tb : list (option nlattr.t)) (maxtype : Z)
    (policy : option (list nla_policy.t)) (stream : list nlattr.t) :
  length (fst (nla_parse_loop tb maxtype policy stream)) = length tb.
Proof.
  revert tb. induction stream as [|nla stream IH]; intros tb; [done|].
  cbn [nla_parse_loop].
  assert (length (fst match py_setitem tb (nla_type nla) (Some nla) with
                      | Return tb' => nla_parse_loop tb' maxtype policy stream
                      | Raise e => (tb, Raise e)
                      end) = length tb) as Hstore.
  { unfold py_setitem.
    destruct (_ && _); [|done]. by rewrite IH, length_insert. }
  destruct (nla_type nla >? maxtype); [apply IH|].
  destruct (py_bool policy); [|done].
  destruct (validate_nla _ _ _) as [err|e]; [|done].
  by destruct (err <? 0).
Qed.

(** What the loop writes: a slot that holds a record after the loop held
    it before, or the record was iterated and the slot is that of its
    type. *)
Lemma nla_parse_loop_slot (tb : list (option nlattr.t)) (maxtype : Z)
    (policy : option (list nla_policy.t)) (stream : list nlattr.t)
    (i : nat) (nla : nlattr.t) :
  fst (nla_parse_loop tb maxtype policy stream) !! i = Some (Some nla) ->
  tb !! i = Some (Some nla)
  \/ (nla ∈ stream /\ i = Z.to_nat (nla_type nla) /\ nla_type nla <= maxtype).
Proof.
  revert tb. induction stream as [|a stream IH]; intros tb Hslot; [by left|].
  cbn [nla_parse_loop] in Hslot.
  pose proof (nla_type_nonneg a) as Hnn.
  assert (fst match py_setitem tb (nla_type a) (Some a) with
              | Return tb' => nla_parse_loop tb' maxtype policy stream
              | Raise e => (tb, Raise e)
              end !! i = Some (Some nla) ->
          tb !! i = Some (Some nla)
          \/ (nla ∈ a :: stream /\ i = Z.to_nat (nla_type nla)
              /\ nla_type nla <= maxtype) \/ maxtype < nla_type a) as Hstore.
  { unfold py_setitem, py_index.
    destruct (Z.ltb_spec (nla_type a) 0); [lia|].
    destruct (_ && _); [|by left].
    intros [Hin|(Hin & Hi & Hle)]%IH.
    - apply list_lookup_insert_Some in Hin as [(<- & Heq & _)|[_ Hin]].
      + simplify_eq. destruct (Z.le_gt_cases (nla_type nla) maxtype).
        * right. left. split; [apply list_elem_of_here|done].
        * by right; right.
      + by left.
    - right. left. split; [by apply list_elem_of_further|done]. }
  destruct (Z.gtb_spec (nla_type a) maxtype) as [Hgt|Hle].
  - apply IH in Hslot as [Hin|(Hin & Hi & Hle)]; [by left|].
    right. split; [by apply list_elem_of_further|done].
  - destruct (py_bool policy).
    + destruct (validate_nla _ _ _) as [err|e]; [|by left].
      destruct (err <? 0); [by left|].
      apply Hstore in Hslot as [?|[?|?]]; [by left|by right|lia].
    + apply Hstore in Hslot as [?|[?|?]]; [by left|by right|lia].
Qed.

(** X6. Whatever [nla_parse] returns or raises, a slot up to [maxtype]
    that holds a record afterwards holds a record of this stream whose
    masked type is the number of the slot: no entry of an earlier parse
    survives, and no record sits under another type. *)
Theorem nla_parse_slot (tb : list (option nlattr.t)) (maxtype : Z)
    (head : list nlattr.t) (len_ : Z) (policy : option (list nla_policy.t))
    (t : Z) (nla : nlattr.t) :
  0 <= t <= maxtype ->
  fst (nla_parse tb maxtype head len_ policy) !! Z.to_nat t = Some (Some nla) ->
  nla_type nla = t /\ nla ∈ head.
Proof.
  intros Ht Hslot. unfold nla_parse in Hslot.
  apply nla_parse_loop_slot in Hslot as [Hold|(Hin & Hi & _)].
  - destruct (Z.lt_ge_cases t (Z.of_nat (length tb))) as [Hlt|Hge].
    + rewrite memset_lookup in Hold by lia. done.
    + apply lookup_lt_Some in Hold. rewrite memset_length in Hold. lia.
  - pose proof (nla_type_nonneg nla). split; [lia|].
    eapply elem_of_prefix; [done|]. apply nla_for_each_attr_prefix.
Qed.

Lemma nla_parse_loop_above (tb : list (option nlattr.t)) (maxtype : Z)
    (policy : option (list nla_policy.t)) (stream : list nlattr.t) (i : nat) :
  maxtype < Z.of_nat i ->
  fst (nla_parse_loop tb maxtype policy stream) !! i = tb !! i.
Proof.
  intros Hi. revert tb. induction stream as [|a stream IH]; intros tb; [done|].
  cbn [nla_parse_loop]. pose proof (nla_type_nonneg a) as Hnn.
  destruct (Z.gtb_spec (nla_type a) maxtype) as [Hgt|Hle]; [apply IH|].
  assert (fst match py_setitem tb (nla_type a) (Some a) with
              | Return tb' => nla_parse_loop tb' maxtype policy stream
              | Raise e => (tb, Raise e)
              end !! i = tb !! i) as Hstore.
  { unfold py_setitem, py_index.
    destruct (Z.ltb_spec (nla_type a) 0); [lia|].
    destruct (_ && _); [|done].
    rewrite IH. apply list_lookup_insert_ne. lia. }
  destruct (py_bool policy); [|done].
  destruct (validate_nla _ _ _) as [err|e]; [|done].
  by destruct (err <? 0).
Qed.

Lemma memset_above (tb : list (option nlattr.t)) (n : Z) (i : nat) :
  n <= Z.of_nat i -> memset tb n !! i = tb !! i.
Proof.
  intros Hi. unfold memset.
  rewrite <- (take_drop (Z.to_nat n) tb) at 3.
  rewrite !lookup_app_r; rewrite ?length_replicate; try done.
  all: rewrite length_take; lia.
Qed.

(** X7. [nla_parse] touches the slots 0 to [maxtype] only: whatever it
    returns or raises, the index array keeps its length and every slot
    above [maxtype] keeps its content. *)
Theorem nla_parse_frame (tb : list (option nlattr.t)) (maxtype : Z)
    (head : list nlattr.t) (len_ : Z) (policy : option (list nla_policy.t)) :
  length (fst (nla_parse tb maxtype head len_ policy)) = length tb
  /\ (forall i : nat, maxtype < Z.of_nat i ->
      fst (nla_parse tb maxtype head len_ policy) !! i = tb !! i).
Proof.
  unfold nla_parse. split.
  - by rewrite nla_parse_loop_length, memset_length.
  - intros i Hi. rewrite nla_parse_loop_above by done.
    apply memset_above. lia.
Qed.

(** ** Further properties of the validation *)

Lemma validate_nla_code (nla : nlattr.t) (maxtype : Z)
    (policy : list nla_policy.t) (err : Z) :
  validate_nla nla maxtype policy = Return err ->
  err = 0 \/ err = - NLE_RANGE \/ err = - NLE_INVAL.
Proof.
  unfold validate_nla. intros Hval.
  destruct (_ || _); [left; by simplify_eq|].
  destruct (py_getitem policy (nla_type nla)) as [pt|]; [|done].
  simpl in Hval.
  destruct (nla_policy.type pt >? NLA_TYPE_MAX); [done|].
  destruct (if negb (nla_policy.minlen pt =? 0) then _ else _) as [minlen|];
    [|done].
  simpl in Hval.
  destruct (nla_len nla <? minlen); [right; left; by simplify_eq|].
  destruct (_ && _); [right; left; by simplify_eq|].
  destruct (nla_policy.type pt =? NLA_STRING); [|left; by simplify_eq].
  destruct (data_getitem _ _) as [c|]; [|done]. simpl in Hval.
  destruct (negb _); simplify_eq; auto.
Qed.

(** X8. [validate_nla] returns one of three codes, 0, -NLE_RANGE or
    -NLE_INVAL, and so never a positive one: the result is below zero
    exactly when it is not 0. *)
Theorem validate_nla_codes (nla : nlattr.t) (maxtype : Z)
    (policy : list nla_policy.t) (err : Z) :
  validate_nla nla maxtype policy = Return err ->
  (err = 0 \/ err = - NLE_RANGE \/ err = - NLE_INVAL)
  /\ (err < 0 <-> err <> 0).
Proof.
  intros Hval. apply validate_nla_code in Hval.
  pose proof NLE_RANGE_pos. pose proof NLE_INVAL_pos. lia.
Qed.

(** X9. [nla_parse] returns 0 or the negative code of a failed
    validation; without a policy it returns nothing but 0. *)
Theorem nla_parse_codes (tb : list (option nlattr.t)) (maxtype : Z)
    (head : list nlattr.t) (len_ : Z) (policy : option (list nla_policy.t))
    (err : Z) :
  snd (nla_parse tb maxtype head len_ policy) = Return err ->
  err = 0
  \/ (py_bool policy = true /\ err < 0
      /\ (err = - NLE_RANGE \/ err = - NLE_INVAL)).
Proof.
  unfold nla_parse.
  generalize (memset tb (maxtype + 1)) as tb0.
  generalize (nla_for_each_attr head (c_int len_)) as stream.
  induction stream as [|nla stream IH]; intros tb0 Hret.
  { left. simpl in Hret. by simplify_eq. }
  cbn [nla_parse_loop] in Hret.
  destruct (nla_type nla >? maxtype); [by eapply IH|].
  assert (snd match py_setitem tb0 (nla_type nla) (Some nla) with
              | Return tb' => nla_parse_loop tb' maxtype policy stream
              | Raise e => (tb0, Raise e)
              end = Return err ->
          err = 0
          \/ (py_bool policy = true /\ err < 0
              /\ (err = - NLE_RANGE \/ err = - NLE_INVAL))) as Hstore.
  { destruct (py_setitem _ _ _); [apply IH|done]. }
  destruct (py_bool policy) eqn:Hpol; [|by apply Hstore].
  destruct (validate_nla _ _ _) as [code|e] eqn:Hval; [|done].
  destruct (Z.ltb_spec code 0); [|by apply Hstore].
  simpl in Hret. simplify_eq. right.
  apply validate_nla_code in Hval. repeat split; [done|]. lia.
Qed.

(** ** Further properties of the encode path *)

(** X13. Two calls of [nla_put] on a message with a header both return 0
    and leave the two attributes at the end of the attribute list in the
    order of the calls, behind the attributes the message had. *)
Theorem nla_put_twice (msg : nl_msg) (nlh : nlmsghdr) (type1 type2 : Z)
    (data1 data2 : pyobj) :
  nm_nlh msg = Some nlh ->
  exists msg1 msg2 : nl_msg,
    nla_put msg type1 data1 = (msg1, Return 0)
    /\ nla_put msg1 type2 data2 = (msg2, Return 0)
    /\ msg_attrs msg2 =
       msg_attrs msg ++ [new_nlattr type1 data1; new_nlattr type2 data2]
    /\ envelope_unchanged msg msg2.
Proof.
  intros Hnlh. unfold nla_put, msg_attrs, envelope_unchanged.
  rewrite Hnlh. do 2 eexists. split; [done|]. simpl.
  split; [done|]. by rewrite <- (assoc_L (++)).
Qed.

(** X14. [nla_get_u32] reads c_uint32 payloads only: on the attribute
    [nla_put] appends for a payload of another kind its assertion
    fails. *)
Theorem nla_get_u32_other_kind (msg : nl_msg) (nlh : nlmsghdr)
    (attrtype : Z) (data : pyobj) :
  nm_nlh msg = Some nlh ->
  (forall value : Z, data <> C_uint32 value) ->
  exists (msg' : nl_msg) (nla : nlattr.t),
    nla_put msg attrtype data = (msg', Return 0)
    /\ last (msg_attrs msg') = Some nla
    /\ nla_get_u32 nla = Raise AssertionError.
Proof.
  intros Hnlh Hkind.
  destruct (nla_put_header msg nlh attrtype data Hnlh)
    as (msg' & Hput & Hattrs & _).
  exists msg', (new_nlattr attrtype data).
  rewrite Hattrs, last_snoc. split; [done|]. split; [done|].
  unfold nla_get_u32. simpl. destruct data; try done. by destruct (Hkind value).
Qed.

(** X15. Two integers given to [nla_put_u32] leave the same message
    exactly when they agree modulo 2^32. *)
Theorem nla_put_u32_congruent (msg : nl_msg) (nlh : nlmsghdr) (attrtype : Z)
    (v w : Z) :
  nm_nlh msg = Some nlh ->
  nla_put_u32 msg attrtype (PyInt v) = nla_put_u32 msg attrtype (PyInt w)
  <-> v mod 2 ^ 32 = w mod 2 ^ 32.
Proof.
  intros Hnlh. unfold nla_put_u32, nla_put, c_uint32. rewrite Hnlh. split.
  - intros Heq. simplify_eq. done.
  - intros Heq. by rewrite Heq.
Qed.

(** ** The masked type *)

(** X17. Masking clears bits only: the type [nla_type] returns is never
    negative and never above the tag stored in the header, so the test
    [type_ < 0] of [validate_nla] never holds. *)
Theorem nla_type_range (nla : nlattr.t) :
  0 <= nla_type nla <= Z.of_N (nlattr.nla_type nla).
Proof.
  split; [apply nla_type_nonneg|]. unfold nla_type.
  set (a := Z.of_N (nlattr.nla_type nla)).
  assert (0 <= a) as Ha by (unfold a; lia).
  assert (0 <= Z.ldiff a NLA_TYPE_MASK) as Hdiff
    by (apply Z.ldiff_nonneg; by left).
  assert (Z.land (Z.ldiff a NLA_TYPE_MASK) (Z.land a NLA_TYPE_MASK) = 0)
    as Hdisj
    by (by rewrite (Z.land_comm a), Z.land_assoc, Z.land_ldiff, Z.land_0_l).
  pose proof (Z.lor_ldiff_and a NLA_TYPE_MASK) as Hsplit.
  rewrite <- Z.lxor_lor, <- Z.add_nocarry_lxor in Hsplit by done. lia.
Qed.

(** ** The module as the interpreter runs it *)

Lemma py_getitem_nonneg {A} (l : list A) (i : Z) :
  0 <= i ->
  py_getitem l i =
  match l !! Z.to_nat i with
  | Some x => Return x
  | None => Raise IndexError
  end.
Proof.
  intros Hi. unfold py_getitem, py_index.
  destruct (Z.ltb_spec i 0); [lia|].
  destruct (Z.leb_spec 0 i); [|lia].
  destruct (Z.ltb_spec i (Z.of_nat (length l))) as [Hlt|Hge]; simpl; [done|].
  by rewrite (lookup_ge_None_2 l (Z.to_nat i)) by lia.
Qed.

Lemma shipped_validate_nla_above (nla : nlattr.t) (maxtype : Z)
    (policy : list nla_policy.t) :
  maxtype < nla_type nla -> shipped.validate_nla nla maxtype policy = Return 0.
Proof.
  intros Hgt. unfold shipped.validate_nla.
  destruct (Z.gtb_spec (nla_type nla) maxtype); [|lia].
  by rewrite orb_true_r.
Qed.

Lemma shipped_validate_nla_in_range (nla : nlattr.t) (maxtype : Z)
    (policy : list nla_policy.t) :
  nla_type nla <= maxtype ->
  shipped.validate_nla nla maxtype policy =
  match policy !! Z.to_nat (nla_type nla) with
  | Some _ => Raise TypeError
  | None => Raise IndexError
  end.
Proof.
  intros Hmax. pose proof (nla_type_nonneg nla) as Hnn.
  unfold shipped.validate_nla.
  destruct (Z.ltb_spec (nla_type nla) 0); [lia|].
  destruct (Z.gtb_spec (nla_type nla) maxtype); [lia|].
  simpl orb. cbv iota. rewrite py_getitem_nonneg by done.
  by destruct (policy !! Z.to_nat (nla_type nla)).
Qed.

(** Where the functions of [shipped] return, the C reading returns the
    same: it only adds results where the module as run raises. *)
Lemma shipped_validate_nla_returns (nla : nlattr.t) (maxtype : Z)
    (policy : list nla_policy.t) (v : Z) :
  shipped.validate_nla nla maxtype policy = Return v ->
  validate_nla nla maxtype policy = Return v.
Proof.
  destruct (Z.le_gt_cases (nla_type nla) maxtype) as [Hle|Hgt].
  - rewrite shipped_validate_nla_in_range by done.
    by destruct (policy !! Z.to_nat (nla_type nla)).
  - rewrite shipped_validate_nla_above by lia. intros <-.
    unfold validate_nla.
    destruct (Z.gtb_spec (nla_type nla) maxtype); [|lia].
    by rewrite orb_true_r.
Qed.

Lemma shipped_nla_parse_loop_returns (tb tb' : list (option nlattr.t))
    (maxtype : Z) (policy : option (list nla_policy.t))
    (records : list nlattr.t) (finish : option exn) (v : Z) :
  shipped.nla_parse_loop tb maxtype policy records finish = (tb', Return v) ->
  nla_parse_loop tb maxtype policy records = (tb', Return v).
Proof.
  revert tb. induction records as [|nla records IH]; intros tb Hret.
  { simpl in *. destruct finish; by simplify_eq. }
  cbn [shipped.nla_parse_loop] in Hret. cbn [nla_parse_loop].
  destruct (nla_type nla >? maxtype); [by apply IH|].
  assert (match py_setitem tb (nla_type nla) (Some nla) with
          | Return tb0 =>
              shipped.nla_parse_loop tb0 maxtype policy records finish
          | Raise e => (tb, Raise e)
          end = (tb', Return v) ->
          match py_setitem tb (nla_type nla) (Some nla) with
          | Return tb0 => nla_parse_loop tb0 maxtype policy records
          | Raise e => (tb, Raise e)
          end = (tb', Return v)) as Hstore.
  { destruct (py_setitem _ _ _); [apply IH|done]. }
  destruct (py_bool policy); [|by apply Hstore].
  destruct (shipped.validate_nla _ _ _) as [err|e] eqn:Hval; [|done].
  rewrite (shipped_validate_nla_returns _ _ _ _ Hval).
  destruct (err <? 0); [done|by apply Hstore].
Qed.

(** C1 (the code on every input). [nla_ok] as the interpreter runs it
    raises TypeError whatever the record and the counter: the star in
    its call of [sizeof] unpacks the record, before any comparison. *)
Theorem nla_ok_raises (nla : nlattr.t) (remaining : Z) :
  shipped.nla_ok nla remaining = Raise TypeError.
Proof. reflexivity. Qed.

(** C8 (the code on every input). [nla_len] as the interpreter runs it
    raises NameError whatever the record: [NLA_HDRLEN] is not bound in
    attr.py. *)
Theorem nla_len_raises (nla : nlattr.t) :
  shipped.nla_len nla = Raise NameError.
Proof. reflexivity. Qed.

(** X11. For a record whose type is at most [maxtype], [validate_nla] as
    the interpreter runs it raises whatever the payload: IndexError when
    the policy table has no entry for the type, TypeError when it has
    one, at the call of [POINTER] on the entry. *)
Theorem validate_nla_in_range_raises (nla : nlattr.t) (maxtype : Z)
    (policy : list nla_policy.t) :
  nla_type nla <= maxtype ->
  (Z.of_nat (length policy) <= nla_type nla ->
   shipped.validate_nla nla maxtype policy = Raise IndexError)
  /\ (forall pt : nla_policy.t,
      policy !! Z.to_nat (nla_type nla) = Some pt ->
      shipped.validate_nla nla maxtype policy = Raise TypeError).
Proof.
  intros Hmax. pose proof (nla_type_nonneg nla) as Hnn.
  rewrite shipped_validate_nla_in_range by done. split.
  - intros Hlen.
    by rewrite (lookup_ge_None_2 policy (Z.to_nat (nla_type nla))) by lia.
  - intros pt Hpt. by rewrite Hpt.
Qed.


End properties.

(** ** The development at the constants of the Linux headers *)

#[global] Existing Instance linux_consts.

Example nla_type_masks_flags :
  nla_type (nlattr.mk 8 32769 PyNone) = 1
  /\ nla_type (nlattr.mk 8 16386 PyNone) = 2
  /\ nla_type rec_high = 9.
Proof. by vm_compute. Qed.

Example nla_align_values :
  NLA_ALIGN 4 = 4 /\ NLA_ALIGN 5 = 8 /\ NLA_ALIGN 8 = 8 /\ NLA_ALIGN 9 = 12.
Proof. by vm_compute. Qed.

(** C9, counterexample: a message as [nl_msg.__init__] leaves it has no
    header; [nla_put] raises AttributeError on it instead of returning
    0. *)
Lemma nla_put_without_header :
  nla_put nl_msg_init 1 (C_uint32 7) = (nl_msg_init, Raise AttributeError).
Proof. reflexivity. Qed.

Lemma nla_put_appends_witness :
  exists msg' : nl_msg,
    nla_put sample_msg 3 (C_uint32 7) = (msg', Return 0)
    /\ msg_attrs msg' = msg_attrs sample_msg ++ [new_nlattr 3 (C_uint32 7)]
    /\ length (msg_attrs msg') = S (length (msg_attrs sample_msg))
    /\ take (length (msg_attrs sample_msg)) (msg_attrs msg')
       = msg_attrs sample_msg
    /\ envelope_unchanged sample_msg msg'.
Proof.
  apply (nla_put_appends sample_msg
           {| nlmsg_type := 16; nlmsg_flags := 5; nlmsg_seq := 1;
              nlmsg_pid := 0; attrs := [rec_u32_a] |} 3 (C_uint32 7)).
  reflexivity.
Defined.

Lemma nla_put_get_roundtrip_witness :
  exists (msg' : nl_msg) (nla : nlattr.t),
    nla_put_u32 sample_msg 3 (PyInt 4294967295) = (msg', Return 0)
    /\ last (msg_attrs msg') = Some nla
    /\ nla_get_u32 nla = Return 4294967295.
Proof.
  refine (proj1 (proj2 (nla_put_get_roundtrip sample_msg
            {| nlmsg_type := 16; nlmsg_flags := 5; nlmsg_seq := 1;
               nlmsg_pid := 0; attrs := [rec_u32_a] |}
            3 (C_chars ["a"; zero]%char) 4294967295 _ _))).
  - reflexivity.
  - vm_compute. split; [discriminate|reflexivity].
Defined.

Lemma nla_put_u32_truncates_witness :
  exists (msg' : nl_msg) (nla : nlattr.t),
    nla_put_u32 sample_msg 3 (PyInt (-1)) = (msg', Return 0)
    /\ last (msg_attrs msg') = Some nla
    /\ nla_get_u32 nla = Return ((-1) mod 2 ^ 32)
    /\ 0 <= (-1) mod 2 ^ 32 < 2 ^ 32.
Proof.
  apply (nla_put_u32_truncates sample_msg
           {| nlmsg_type := 16; nlmsg_flags := 5; nlmsg_seq := 1;
              nlmsg_pid := 0; attrs := [rec_u32_a] |} 3 (-1)).
  reflexivity.
Defined.

Example nla_put_u32_wrap_values :
  snd (nla_put_u32 sample_msg 3 (PyInt (-1))) = Return 0
  /\ (nla_get_u32 <$> last (msg_attrs (fst (nla_put_u32 sample_msg 3 (PyInt (-1))))))
     = Some (Return 4294967295)
  /\ (nla_get_u32 <$> last (msg_attrs (fst (nla_put_u32 sample_msg 3 (PyInt (2 ^ 32 + 5))))))
     = Some (Return 5).
Proof. by vm_compute. Qed.

(** ** The further properties on the sample data *)

Lemma nla_next_progress_witness :
  nla_next [rec_seven; rec_u32_a] 16 = ([rec_u32_a], 16 - NLA_ALIGN 8)
  /\ -3 <= 16 - NLA_ALIGN 8 < 16.
Proof.
  apply (nla_next_progress rec_seven [rec_u32_a] 16); reflexivity.
Defined.

Lemma nla_for_each_attr_within_witness :
  stream_span (nla_for_each_attr [rec_u32_a; rec_short; rec_u32_b] (c_int 14))
    <= Z.max 0 (c_int 14)
  /\ Forall (λ nla, sizeof_nlattr <= nlattr.nla_len nla)
       (nla_for_each_attr [rec_u32_a; rec_short; rec_u32_b] (c_int 14)).
Proof.
  apply (nla_for_each_attr_within [rec_u32_a; rec_short; rec_u32_b] 14).
  vm_compute. discriminate.
Defined.

Lemma nla_parse_slot_witness :
  nla_type rec_u32_a = 1 /\ rec_u32_a ∈ [rec_u32_a; rec_short].
Proof.
  apply (nla_parse_slot stale_tb 5 [rec_u32_a; rec_short] 16
           (Some sample_policy) 1 rec_u32_a).
  - vm_compute. split; discriminate.
  - reflexivity.
Defined.

Lemma nla_parse_frame_witness :
  fst (nla_parse stale_tb 5 [rec_u32_a; rec_short] 16 (Some sample_policy))
    !! 7%nat = stale_tb !! 7%nat.
Proof.
  apply (proj2 (nla_parse_frame stale_tb 5 [rec_u32_a; rec_short] 16
                  (Some sample_policy))).
  reflexivity.
Defined.

Lemma validate_nla_codes_witness :
  (- NLE_RANGE = 0 \/ - NLE_RANGE = - NLE_RANGE \/ - NLE_RANGE = - NLE_INVAL)
  /\ (- NLE_RANGE < 0 <-> - NLE_RANGE <> 0).
Proof.
  apply (validate_nla_codes rec_short 5 sample_policy (- NLE_RANGE)).
  reflexivity.
Defined.

Lemma nla_parse_codes_witness :
  - NLE_RANGE = 0
  \/ (py_bool (Some sample_policy) = true /\ - NLE_RANGE < 0
      /\ (- NLE_RANGE = - NLE_RANGE \/ - NLE_RANGE = - NLE_INVAL)).
Proof.
  apply (nla_parse_codes empty_tb 5 [rec_u32_a; rec_short] 16
           (Some sample_policy) (- NLE_RANGE)).
  reflexivity.
Defined.

Lemma nla_put_twice_witness :
  exists msg1 msg2 : nl_msg,
    nla_put sample_msg 3 (C_uint32 7) = (msg1, Return 0)
    /\ nla_put msg1 4 (C_chars ["a"; zero]%char) = (msg2, Return 0)
    /\ msg_attrs msg2 =
       msg_attrs sample_msg
       ++ [new_nlattr 3 (C_uint32 7);
           new_nlattr 4 (C_chars ["a"; zero]%char)]
    /\ envelope_unchanged sample_msg msg2.
Proof.
  apply (nla_put_twice sample_msg
           {| nlmsg_type := 16; nlmsg_flags := 5; nlmsg_seq := 1;
              nlmsg_pid := 0; attrs := [rec_u32_a] |} 3 4 (C_uint32 7) (C_chars ["a"; zero]%char)).
  reflexivity.
Defined.

Lemma nla_get_u32_other_kind_witness :
  exists (msg' : nl_msg) (nla : nlattr.t),
    nla_put sample_msg 2 (C_uint16 513) = (msg', Return 0)
    /\ last (msg_attrs msg') = Some nla
    /\ nla_get_u32 nla = Raise AssertionError.
Proof.
  apply (nla_get_u32_other_kind sample_msg
           {| nlmsg_type := 16; nlmsg_flags := 5; nlmsg_seq := 1;
              nlmsg_pid := 0; attrs := [rec_u32_a] |} 2 (C_uint16 513)).
  - reflexivity.
  - discriminate.
Defined.

Lemma nla_put_u32_congruent_witness :
  nla_put_u32 sample_msg 3 (PyInt (-1)) =
  nla_put_u32 sample_msg 3 (PyInt 4294967295).
Proof.
  apply (nla_put_u32_congruent sample_msg
           {| nlmsg_type := 16; nlmsg_flags := 5; nlmsg_seq := 1;
              nlmsg_pid := 0; attrs := [rec_u32_a] |} 3 (-1) 4294967295).
  - reflexivity.
  - reflexivity.
Defined.

(** ** The module as run, on the sample data *)

(** C4 (the code at the failing input). A record of type 9 with
    [maxtype] 5 is accepted by [validate_nla]; [nla_parse] on a stream
    that holds it raises NameError in the loop header instead of parsing
    it with success. *)
Lemma nla_parse_above_unbound :
  shipped.validate_nla rec_high 5 sample_policy = Return 0
  /\ shipped.nla_parse None empty_tb 5 [rec_high] 8 None =
       (empty_tb, Raise NameError).
Proof. split; reflexivity. Qed.

(** C5 (the code at the failing input). For a record of type 3 with a
    payload of 2 bytes under a 32 bit policy entry, [validate_nla] raises
    TypeError at the call of [POINTER], before the lengths are
    compared. *)
Lemma validate_nla_minlen_unreached :
  shipped.validate_nla rec_short 5 sample_policy = Raise TypeError.
Proof. reflexivity. Qed.

(** C6 (the code at the failing input). For a record of type 4 under a
    string policy entry whose payload lacks the terminator,
    [validate_nla] raises TypeError at the call of [POINTER], before the
    terminator is looked at. *)
Lemma validate_nla_string_unreached :
  shipped.validate_nla rec_str_open 5 sample_policy = Raise TypeError.
Proof. reflexivity. Qed.

(** C7 (the code at the failing input). On a stream of two records of
    type 1, [nla_parse] raises NameError in the loop header and leaves
    the slot of type 1 empty instead of holding the second record. *)
Lemma nla_parse_repeat_unbound :
  shipped.nla_parse None empty_tb 5 [rec_u32_a; rec_u32_b] 16 None =
    (empty_tb, Raise NameError)
  /\ empty_tb !! 1%nat = Some None.
Proof. split; reflexivity. Qed.


Lemma validate_nla_in_range_raises_witness :
  shipped.validate_nla rec_seven 5 bad_kind_policy = Raise IndexError
  /\ shipped.validate_nla rec_u32_a 5 bad_kind_policy = Raise TypeError.
Proof.
  split.
  - refine (proj1 (validate_nla_in_range_raises rec_seven 5 bad_kind_policy
                     _) _).
    + vm_compute. discriminate.
    + vm_compute. discriminate.
  - refine (proj2 (validate_nla_in_range_raises rec_u32_a 5 bad_kind_policy
                     _) (nla_policy.mk 9 0 0) _).
    + vm_compute. discriminate.
    + reflexivity.
Defined.
